(** * Master-detail grid example (app.py): loader, cache and grid options

    A shallow embedding of [src/app.py].  The program fetches a JSON array
    of master records, turns it into a pandas DataFrame whose
    [callRecords] column holds one detail DataFrame per row, appends a
    synthetic orphan row, memoises the result per URL ([st.cache_data]) and
    builds the [gridOptions] dictionary handed to AgGrid.

    The library calls ([requests], [pandas], [streamlit], the JavaScript
    [toLocaleString]) are modelled by their documented behaviour on the
    inbound contract of the program: an HTTP body either is not JSON or
    decodes to an array of objects whose values are scalars, flat objects
    or arrays of flat objects.  The dtype inference of [pd.read_json] is not modelled:
    cells keep the decoded values. *)

From Stdlib Require Import Ascii.
From stdpp Require Import base strings list gmap pretty.

Local Open Scope Z_scope.
Local Open Scope string_scope.
Local Open Scope list_scope.

(** ** Decoded JSON *)

Inductive scalar :=
  | SNull
  | SBool (b : bool)
  | SInt (n : Z)
  | SFloat (mantissa exponent : Z)   (* the decimal mantissa * 10^exponent *)
  | SStr (s : string).

(** A Python [dict] whose values are scalars, in insertion order. *)
Definition flat_obj := list (string * scalar).

Inductive value :=
  | VScalar (s : scalar)
  | VObjects (os : list flat_obj)    (* a list of dicts *)
  | VObject (o : flat_obj).          (* a dict *)

(** A top-level source object. *)
Definition object := list (string * value).

#[global] Instance scalar_eq_dec : EqDecision scalar.
Proof. solve_decision. Defined.
#[global] Instance value_eq_dec : EqDecision value.
Proof. solve_decision. Defined.

(** [d.get(k)] on an insertion-ordered dict. *)
Fixpoint dict_get {V : Type} (k : string) (d : list (string * V)) : option V :=
  match d with
  | [] => None
  | (k', v) :: d' => if decide (k' = k) then Some v else dict_get k d'
  end.

(** [d[k] = v]: an existing key keeps its position, a new key goes last. *)
Fixpoint dict_set {V : Type} (k : string) (v : V) (d : list (string * V))
  : list (string * V) :=
  match d with
  | [] => [(k, v)]
  | (k', v') :: d' =>
      if decide (k' = k) then (k, v) :: d' else (k', v') :: dict_set k v d'
  end.

(** ** DataFrames

    A frame is the list of its rows in index order.  A row lists the cells
    that are present; a column missing from a row is NaN there, and the
    columns of a frame are the keys that occur in some row. *)

Abbreviation detail_frame := (list flat_obj).

Inductive cell :=
  | CValue (v : value)
  | CFrame (f : detail_frame).

#[global] Instance cell_eq_dec : EqDecision cell.
Proof. solve_decision. Defined.

Definition frame_row := list (string * cell).
Abbreviation frame := (list frame_row).

(** ** Exceptions and the outcome of a call *)

Inductive exn :=
  | ConnectionError            (* requests.get: no response *)
  | JSONDecodeError            (* response.json() *)
  | URLError                   (* urllib, used by pd.read_json: no response *)
  | HTTPError (code : Z)       (* urllib: status outside 200..299 *)
  | ValueError                 (* pd.read_json: body is not JSON *)
  | KeyError (key : string)    (* df[key] on a missing column *)
  | NotImplementedError        (* pd.json_normalize on a non-iterable *)
  | SystemError.               (* a reference to no object; unreachable *)

#[global] Instance exn_eq_dec : EqDecision exn.
Proof. solve_decision. Defined.

(** The error taxonomy of the specification. *)
Inductive error_kind := FetchError | DecodeError | SchemaError | InternalError.

Definition classify (e : exn) : error_kind :=
  match e with
  | ConnectionError | URLError | HTTPError _ => FetchError
  | JSONDecodeError | ValueError => DecodeError
  | KeyError _ | NotImplementedError => SchemaError
  | SystemError => InternalError
  end.

Inductive result (A : Type) :=
  | Ok (a : A)
  | Raise (e : exn).
Arguments Ok {A} a.
Arguments Raise {A} e.

(** ** The process state *)

Inductive body :=
  | Malformed                      (* not valid JSON *)
  | Records (rs : list object).    (* a JSON array of objects *)

Inductive http_outcome :=
  | NetworkFailure
  | Response (status_code : Z) (content : body).

Inductive client := Requests | Urllib.

#[global] Instance client_eq_dec : EqDecision client.
Proof. solve_decision. Defined.

Definition loc := nat.
Definition dataset : Type := frame * list object.

Record state := mkState {
  sent : list (client * string);     (* every HTTP request made so far *)
  cache : gmap string dataset;       (* the st.cache_data store of load_data *)
  heap : list (list object);         (* Python list objects, by address *)
}.

Definition init : state := mkState [] ∅ [].

Definition M (A : Type) : Type := state → result A * state.

#[global] Instance M_ret : MRet M := λ A a st, (Ok a, st).
#[global] Instance M_bind : MBind M := λ A B f m st,
  match m st with
  | (Ok a, st') => f a st'
  | (Raise e, st') => (Raise e, st')
  end.

Definition raise {A} (e : exn) : M A := λ st, (Raise e, st).
Definition lift {A} (r : result A) : M A := λ st, (r, st).

#[global] Instance result_ret : MRet result := λ A a, Ok a.
#[global] Instance result_bind : MBind result := λ A B f r,
  match r with
  | Ok a => f a
  | Raise e => Raise e
  end.

(** ** pandas *)

(** [df[key]]: the column as a Series, [None] standing for NaN. *)
Definition df_getitem (df : list object) (key : string)
  : result (list (option value)) :=
  if existsb (λ r, bool_decide (is_Some (dict_get key r))) df
  then Ok (dict_get key <$> df)
  else Raise (KeyError key).

(** [pd.json_normalize(x)] on one cell: a list of dicts becomes a frame with
    one row per dict, in order; a dict is taken as the list of itself; NaN,
    [None], booleans, numbers and strings are rejected. *)
Definition json_normalize (x : option value) : result detail_frame :=
  match x with
  | Some (VObjects os) => Ok os
  | Some (VObject o) => Ok [o]
  | Some (VScalar _) => Raise NotImplementedError
  | None => Raise NotImplementedError
  end.

(** [series.apply(f)]: element by element in index order; the first
    exception ends the call. *)
Definition series_apply {A B} (f : A → result B) (col : list A)
  : result (list B) :=
  mapM f col.

(** [df[key] = col] where [col] holds frames. *)
Definition df_setitem (df : list object) (key : string)
    (col : list detail_frame) : frame :=
  zip_with (λ r f, dict_set key (CFrame f) (prod_map id CValue <$> r)) df col.

(** [df["callRecords"] = df["callRecords"].apply(lambda x:
    pd.json_normalize(x))]. *)
Definition normalize_callRecords (df : list object) : result frame :=
  col ← df_getitem df "callRecords";
  col ← series_apply json_normalize col;
  mret (df_setitem df "callRecords" col).

(** [pd.DataFrame(d)] for a dict of equally long columns. *)
Definition pd_DataFrame (d : list (string * list cell)) : frame :=
  let n := match d with [] => 0%nat | (_, vs) :: _ => length vs end in
  (λ i, omap (λ '(k, vs), pair k <$> vs !! i) d) <$> seq 0 n.

(** [pd.concat(dfs, ignore_index=True)]. *)
Definition pd_concat (dfs : list frame) : frame := concat dfs.

(** ** load_data *)

Definition orphaned_records : list (string * list cell) :=
  [ ("name", [CValue (VScalar (SStr "Orphaned Record"))]);
    ("account", [CValue (VScalar (SStr "N/A"))]);
    ("calls", [CValue (VScalar (SInt 0))]);
    ("minutes", [CValue (VScalar (SInt 0))]);
    ("callRecords", [CFrame
       [ [ ("callId", SStr "orphan1"); ("direction", SStr "outbound");
           ("number", SStr "1234567890"); ("duration", SInt 0);
           ("switchCode", SStr "N/A") ];
         [ ("callId", SStr "orphan2"); ("direction", SStr "inbound");
           ("number", SStr "0987654321"); ("duration", SInt 0);
           ("switchCode", SStr "N/A") ] ]]) ].

Definition set_sent (f : list (client * string) → list (client * string))
    (st : state) : state :=
  mkState (f (sent st)) (cache st) (heap st).
Definition set_cache (f : gmap string dataset → gmap string dataset)
    (st : state) : state :=
  mkState (sent st) (f (cache st)) (heap st).
Definition set_heap (f : list (list object) → list (list object))
    (st : state) : state :=
  mkState (sent st) (cache st) (f (heap st)).

Section Loader.
(** What the network answers to the [n]-th request of the process. *)
Variable server : nat → string → http_outcome.

Definition request (c : client) (url : string) : M http_outcome := λ st,
  (Ok (server (length (sent st)) url), set_sent (λ l, l ++ [(c, url)]) st).

(** [requests.get(url)]: a response of any status is returned. *)
Definition requests_get (url : string) : M (Z * body) :=
  r ← request Requests url;
  match r with
  | NetworkFailure => raise ConnectionError
  | Response s b => mret (s, b)
  end.

(** [response.json()]. *)
Definition response_json (response : Z * body) : M (list object) :=
  match response.2 with
  | Malformed => raise JSONDecodeError
  | Records rs => mret rs
  end.

(** [pd.read_json(url)]: pandas opens the URL itself, through urllib. *)
Definition pd_read_json (url : string) : M (list object) :=
  r ← request Urllib url;
  match r with
  | NetworkFailure => raise URLError
  | Response s b =>
      if bool_decide (200 ≤ s < 300) then
        match b with
        | Malformed => raise ValueError
        | Records rs => mret rs
        end
      else raise (HTTPError s)
  end.

(** The body of [load_data], without its decorator. *)
Definition load_data_uncached (url : string) : M dataset :=
  response ← requests_get url;
  data ← response_json response;
  df ← pd_read_json url;
  df ← lift (normalize_callRecords df);
  let df := pd_concat [df; pd_DataFrame orphaned_records] in
  mret (df, data).

(** [@st.cache_data]: the value of a call that returned is stored under
    its argument; a call that raised stores nothing. *)
Definition st_cache_data (f : string → M dataset) (url : string)
  : M dataset := λ st,
  match cache st !! url with
  | Some v => (Ok v, st)
  | None =>
      match f url st with
      | (Ok v, st') => (Ok v, set_cache (λ c, <[url := v]> c) st')
      | (Raise e, st') => (Raise e, st')
      end
  end.

Definition load_data : string → M dataset := st_cache_data load_data_uncached.

End Loader.

(** How often the body of [load_data] ran for [url]: each run starts with
    exactly one [requests.get(url)]. *)
Definition executions (url : string) (st : state) : nat :=
  length (filter (λ q, q = (Requests, url)) (sent st)).

(** ** Python list objects *)

Definition alloc (xs : list object) : M loc := λ st,
  (Ok (length (heap st)), set_heap (λ h, h ++ [xs]) st).

Definition deref (l : loc) : M (list object) := λ st,
  match heap st !! l with
  | Some xs => (Ok xs, st)
  | None => (Raise SystemError, st)
  end.

(** ** build_grid_options *)

Inductive js_code := JsCode (source : string).

Record column_def := {
  field : string;
  cellRenderer : option string;
  checkboxSelection : option bool;
  valueFormatter : option string;
  minWidth : option Z;
}.

Record col_defaults := {
  sortable : option bool;
  flex : option Z;
}.

Record detail_grid_options := {
  detail_rowSelection : string;
  suppressRowClickSelection : bool;
  enableRangeSelection : bool;
  pagination : bool;
  paginationAutoPageSize : bool;
  detail_columnDefs : list column_def;
  detail_defaultColDef : col_defaults;
}.

Record detail_cell_renderer_params := {
  detailGridOptions : detail_grid_options;
  getDetailRowData : js_code;
}.

(** The [gridOptions] dict; [R] is how the row list is held: by address
    while the program runs, by content once read back. *)
Record grid_options (R : Type) := {
  masterDetail : bool;
  rowSelection : string;
  columnDefs : list column_def;
  defaultColDef : col_defaults;
  detailCellRendererParams : detail_cell_renderer_params;
  rowData : R;
}.
Arguments masterDetail {R} _.
Arguments rowSelection {R} _.
Arguments columnDefs {R} _.
Arguments defaultColDef {R} _.
Arguments detailCellRendererParams {R} _.
Arguments rowData {R} _.

(** The dict literal that [build_grid_options] appends to [data_json]. *)
Definition orphans_row : object :=
  [ ("name", VScalar (SStr "Orphans"));
    ("account", VScalar (SInt 0));
    ("calls", VScalar (SInt 0));
    ("minutes", VScalar (SInt 0));
    ("callRecords", VObjects
       [ [ ("callId", SStr "orphan1"); ("direction", SStr "outbound");
           ("number", SStr "1234567890"); ("duration", SInt 0);
           ("switchCode", SStr "N/A") ];
         [ ("callId", SStr "orphan2"); ("direction", SStr "inbound");
           ("number", SStr "0987654321"); ("duration", SInt 0);
           ("switchCode", SStr "N/A") ] ]) ].

Definition build_grid_options (data_json : loc) : M (grid_options loc) :=
  let get_detail_js := JsCode "function (params) {
            params.successCallback(params.data.callRecords);
        }" in
  xs ← deref data_json;
  row_data ← alloc (xs ++ [orphans_row]);
  mret {|
    masterDetail := true;
    rowSelection := "single";
    columnDefs :=
      [ {| field := "name"; cellRenderer := Some "agGroupCellRenderer";
           checkboxSelection := Some true; valueFormatter := None;
           minWidth := None |};
        {| field := "account"; cellRenderer := None;
           checkboxSelection := None; valueFormatter := None;
           minWidth := None |};
        {| field := "calls"; cellRenderer := None;
           checkboxSelection := None; valueFormatter := None;
           minWidth := None |};
        {| field := "minutes"; cellRenderer := None;
           checkboxSelection := None;
           valueFormatter := Some "x.toLocaleString() + 'm'";
           minWidth := None |} ];
    defaultColDef := {| sortable := None; flex := Some 1 |};
    detailCellRendererParams := {|
      detailGridOptions := {|
        detail_rowSelection := "multiple";
        suppressRowClickSelection := true;
        enableRangeSelection := true;
        pagination := true;
        paginationAutoPageSize := true;
        detail_columnDefs :=
          [ {| field := "callId"; cellRenderer := None;
               checkboxSelection := Some true; valueFormatter := None;
               minWidth := None |};
            {| field := "direction"; cellRenderer := None;
               checkboxSelection := None; valueFormatter := None;
               minWidth := None |};
            {| field := "number"; cellRenderer := None;
               checkboxSelection := None; valueFormatter := None;
               minWidth := Some 150 |};
            {| field := "duration"; cellRenderer := None;
               checkboxSelection := None;
               valueFormatter := Some "x.toLocaleString() + 's'";
               minWidth := None |};
            {| field := "switchCode"; cellRenderer := None;
               checkboxSelection := None; valueFormatter := None;
               minWidth := Some 150 |} ];
        detail_defaultColDef := {| sortable := Some true; flex := Some 1 |};
      |};
      getDetailRowData := get_detail_js;
    |};
    rowData := row_data;
  |}.

(** The same dict with another value under [rowData]. *)
Definition with_rows {R S} (g : grid_options R) (rows : S) : grid_options S :=
  {| masterDetail := masterDetail g;
     rowSelection := rowSelection g;
     columnDefs := columnDefs g;
     defaultColDef := defaultColDef g;
     detailCellRendererParams := detailCellRendererParams g;
     rowData := rows |}.

(** The dict as the renderer receives it: the row list read by content. *)
Definition snapshot (st : state) (g : grid_options loc)
  : option (grid_options (list object)) :=
  rows ← heap st !! rowData g;
  Some (with_rows g rows).

(** [n] builds on the same list object, one after the other. *)
Fixpoint build_grid_options_n (n : nat) (data_json : loc) (st : state)
  : list (result (grid_options loc)) * state :=
  match n with
  | O => ([], st)
  | S n' =>
      let '(r, st1) := build_grid_options data_json st in
      let '(rs, st2) := build_grid_options_n n' data_json st1 in
      (r :: rs, st2)
  end.

(** ** main *)

Definition DATA_URL : string :=
  "https://www.ag-grid.com/example-assets/master-detail-data.json".

(** The data path of [main]; the Streamlit widgets and the AgGrid call
    only read [gridOptions] and [data_json]. *)
Definition main (server : nat → string → http_outcome)
  : M (grid_options loc) :=
  '(df, data) ← load_data server DATA_URL;
  data_json ← alloc data;
  gridOptions ← build_grid_options data_json;
  mret gridOptions.

(** ** Value formatters

    A [valueFormatter] string is a JavaScript expression over the cell value
    [x], evaluated by the grid in the browser.  [toLocaleString()] without
    arguments formats in the locale of that browser; the locales modelled
    here group the integer digits by three. *)

Record locale := { group_separator : string }.

Definition en_US : locale := {| group_separator := "," |}.
Definition de_DE : locale := {| group_separator := "." |}.

(** Separators between groups of three, on digits given lowest first. *)
Fixpoint group_rev (sep : string) (k : nat) (ds : string) : string :=
  match ds with
  | EmptyString => EmptyString
  | String d ds' =>
      if (k =? 3)%nat then String.rev sep +:+ String d (group_rev sep 1 ds')
      else String d (group_rev sep (S k) ds')
  end.

(** [x.toLocaleString()] for an integer [x]. *)
Definition toLocaleString (l : locale) (x : Z) : string :=
  (if bool_decide (x < 0) then "-" else "") +:+
  String.rev (group_rev (group_separator l) 0 (String.rev (pretty (Z.abs x)))).

(** The expressions of the form [x.toLocaleString() + '<unit>']. *)
Definition eval_formatter (l : locale) (expr : string) (x : Z)
  : option string :=
  let call := "x.toLocaleString() + '" in
  if String.prefix call expr then
    let rest := String.substring (String.length call)
                  (String.length expr - String.length call) expr in
    match String.rev rest with
    | String "'"%char unit_rev => Some (toLocaleString l x +:+ String.rev unit_rev)
    | _ => None
    end
  else None.

(** The formatter of a column, looked up in a list of column definitions. *)
Definition column_formatter (cols : list column_def) (name : string)
  : option string :=
  c ← find (λ c, bool_decide (field c = name)) cols;
  valueFormatter c.

(** What the master grid shows for a [minutes] cell and the detail grid for
    a [duration] cell. *)
Definition format_minutes {R} (g : grid_options R) (l : locale) (x : Z)
  : option string :=
  expr ← column_formatter (columnDefs g) "minutes";
  eval_formatter l expr x.

Definition format_duration {R} (g : grid_options R) (l : locale) (x : Z)
  : option string :=
  expr ← column_formatter
           (detail_columnDefs (detailGridOptions (detailCellRendererParams g)))
           "duration";
  eval_formatter l expr x.

(** ** Notions the properties are stated with *)


(** The single row of [pd.DataFrame(orphaned_records)]. *)
Definition orphaned_row : frame_row :=
  Eval vm_compute in default [] (head (pd_DataFrame orphaned_records)).

(** The fixed orphan bucket in the words of the specification (4.3), to be
    compared with the two literals of the program. *)
Definition spec_orphan_details : list flat_obj :=
  [ [ ("callId", SStr "orphan1"); ("direction", SStr "outbound");
      ("number", SStr "1234567890"); ("duration", SInt 0);
      ("switchCode", SStr "N/A") ];
    [ ("callId", SStr "orphan2"); ("direction", SStr "inbound");
      ("number", SStr "0987654321"); ("duration", SInt 0);
      ("switchCode", SStr "N/A") ] ].

(** [name="Orphaned Record"], [account="N/A"], [calls=0], [minutes=0], read
    off a row whose plain cells are built with [inj]. *)
Definition orphan_identity {C} (inj : value → C) (row : list (string * C))
  : Prop :=
  dict_get "name" row = Some (inj (VScalar (SStr "Orphaned Record"))) ∧
  dict_get "account" row = Some (inj (VScalar (SStr "N/A"))) ∧
  dict_get "calls" row = Some (inj (VScalar (SInt 0))) ∧
  dict_get "minutes" row = Some (inj (VScalar (SInt 0))).

(** Orphan buckets in a frame and in a row list. *)
Definition count_orphaned (df : list frame_row) : nat :=
  length (filter (λ r, r = orphaned_row) df).
Definition count_orphans (rows : list object) : nat :=
  length (filter (λ r, r = orphans_row) rows).

(** A source object whose [callRecords] is an array of objects. *)
Definition has_call_records (r : object) : bool :=
  match dict_get "callRecords" r with
  | Some (VObjects _) => true
  | _ => false
  end.

Definition well_formed (rs : list object) : bool := forallb has_call_records rs.

Definition details_of (r : object) : detail_frame :=
  match dict_get "callRecords" r with
  | Some (VObjects os) => os
  | Some (VObject o) => [o]
  | _ => []
  end.

(** The frame row a well-formed source object becomes. *)
Definition master_row (r : object) : frame_row :=
  dict_set "callRecords" (CFrame (details_of r)) (prod_map id CValue <$> r).

(** ** Sample inputs *)

Definition nora : object :=
  [ ("name", VScalar (SStr "Nora Thomas"));
    ("account", VScalar (SInt 177000));
    ("calls", VScalar (SInt 24));
    ("minutes", VScalar (SFloat 2565 (-2)));
    ("callRecords", VObjects
       [ [ ("callId", SInt 555); ("direction", SStr "Out");
           ("number", SStr "(00) 88542069"); ("duration", SInt 72);
           ("switchCode", SStr "SW3") ];
         [ ("callId", SInt 556); ("direction", SStr "In");
           ("number", SStr "(01) 7432576"); ("duration", SInt 61);
           ("switchCode", SStr "SW3") ] ]) ].

Definition mila : object :=
  [ ("name", VScalar (SStr "Mila Smith"));
    ("account", VScalar (SInt 177001));
    ("calls", VScalar (SInt 24));
    ("minutes", VScalar (SInt 26));
    ("callRecords", VObjects []) ].

Definition sample_records : list object := [nora; mila].

(** A source object that looks exactly like the appended orphan row. *)
Definition orphan_lookalike : object :=
  [ ("name", VScalar (SStr "Orphaned Record"));
    ("account", VScalar (SStr "N/A"));
    ("calls", VScalar (SInt 0));
    ("minutes", VScalar (SInt 0));
    ("callRecords", VObjects spec_orphan_details) ].

(** An object without [callRecords]. *)
Definition bare : object :=
  [ ("name", VScalar (SStr "Evie Brown")); ("account", VScalar (SInt 177002)) ].

Definition serve (b : body) : nat → string → http_outcome :=
  λ _ _, Response 200 b.

Definition srv_down : nat → string → http_outcome := λ _ _, NetworkFailure.

(** The first answer is cut short, the later ones are complete. *)
Definition srv_truncated_once : nat → string → http_outcome := λ n _,
  match n with
  | O => Response 200 Malformed
  | _ => Response 200 (Records sample_records)
  end.

(** A 500 that carries a JSON array, then a 200. *)
Definition srv_500_then_200 : nat → string → http_outcome := λ n _,
  match n with
  | O => Response 500 (Records sample_records)
  | _ => Response 200 (Records sample_records)
  end.

(** A 200, then a 503 for the request of pandas. *)
Definition srv_200_then_503 : nat → string → http_outcome := λ n _,
  match n with
  | O => Response 200 (Records sample_records)
  | _ => Response 503 Malformed
  end.

(** A 200, then no answer to the request of pandas. *)
Definition srv_200_then_down : nat → string → http_outcome := λ n _,
  match n with
  | O => Response 200 (Records sample_records)
  | _ => NetworkFailure
  end.

(** A process that holds one list object, at address 0. *)
Definition holding (xs : list object) : state := mkState [] ∅ [xs].

(** ** The script

    What [main] does around the data path: the page title, the log lines,
    the tabs, the AgGrid call and the three [st.write] calls, in order.
    The grid widget is outside the program: [aggrid] stands for what it
    hands back as [selected_rows_id] for the options it is given. *)

Inductive shown :=
  | ShownRows (rows : list object)
  | ShownOptions (opts : grid_options (list object))
  | ShownSelection (label : string) (ids : option (list string)).

Inductive event :=
  | Title (text : string)                 (* st.title *)
  | LogInfo (msg : string)                (* logger.info *)
  | Tabs (names : list string)            (* st.tabs *)
  | Grid (tab : nat) (opts : grid_options (list object))
         (allow_unsafe_jscode enable_enterprise_modules : bool)
         (key : string)                   (* AgGrid(None, ...) *)
  | Write (tab : option nat) (what : shown).   (* st.write *)

(** A computation that also shows things; what was shown before an
    exception stays shown. *)
Definition Script (A : Type) : Type :=
  state → list event → result A * state * list event.

#[global] Instance Script_ret : MRet Script := λ A a st evs, (Ok a, st, evs).
#[global] Instance Script_bind : MBind Script := λ A B f m st evs,
  match m st evs with
  | (Ok a, st', evs') => f a st' evs'
  | (Raise e, st', evs') => (Raise e, st', evs')
  end.

Definition emit (e : event) : Script unit := λ st evs, (Ok (), st, evs ++ [e]).

Definition run {A} (m : M A) : Script A := λ st evs,
  let '(r, st') := m st in (r, st', evs).

(** The content of the dict at the time it is handed over. *)
Definition read_options (g : grid_options loc)
  : Script (grid_options (list object)) := λ st evs,
  match snapshot st g with
  | Some opts => (Ok opts, st, evs)
  | None => (Raise SystemError, st, evs)
  end.

Section Script.
Variable server : nat → string → http_outcome.
Variable aggrid : grid_options (list object) → option (list string).

Definition main_script : Script unit :=
  emit (Title "Master-Detail Grid Example");;
  emit (LogInfo "Loading data...");;
  '(df, data) ← run (load_data server DATA_URL);
  data_json ← run (alloc data);
  emit (LogInfo "Data loaded successfully.");;
  emit (LogInfo "Building grid options...");;
  gridOptions ← run (build_grid_options data_json);
  emit (LogInfo "Grid options built.");;
  emit (Tabs ["Grid"; "Underlying Data"; "Grid Options"; "Grid Return"]);;
  opts ← read_options gridOptions;
  emit (Grid 0 opts true true "an_unique_key");;
  let selected_rows_id := aggrid opts in
  rows ← run (deref data_json);
  emit (Write (Some 1%nat) (ShownRows rows));;
  opts ← read_options gridOptions;
  emit (Write (Some 2%nat) (ShownOptions opts));;
  emit (Write None (ShownSelection "Selected Rows ID:" selected_rows_id)).
End Script.

(** What a run that gets through its load shows, for the raw rows [data]. *)
Definition page (aggrid : grid_options (list object) → option (list string))
    (opts : grid_options (list object)) (data : list object) : list event :=
  [ Title "Master-Detail Grid Example";
    LogInfo "Loading data...";
    LogInfo "Data loaded successfully.";
    LogInfo "Building grid options...";
    LogInfo "Grid options built.";
    Tabs ["Grid"; "Underlying Data"; "Grid Options"; "Grid Return"];
    Grid 0 opts true true "an_unique_key";
    Write (Some 1%nat) (ShownRows data);
    Write (Some 2%nat) (ShownOptions opts);
    Write None (ShownSelection "Selected Rows ID:" (aggrid opts)) ].

(** ** Further notions *)

(** Loads of several URLs, one after the other, whatever they return. *)
Fixpoint load_each (server : nat → string → http_outcome)
    (urls : list string) (st : state) : state :=
  match urls with
  | [] => st
  | url :: urls' => load_each server urls' (load_data server url st).2
  end.

(** A loaded frame: at least two rows, the orphan row last, and a frame in
    the [callRecords] cell of every row. *)
Definition frame_ok (df : frame) : Prop :=
  (2 ≤ length df)%nat ∧
  last df = Some orphaned_row ∧
  Forall (λ row, ∃ f, dict_get "callRecords" row = Some (CFrame f)) df.

Definition cache_ok (st : state) : Prop :=
  ∀ url df data, cache st !! url = Some (df, data) → frame_ok df.

Definition dict_keys {V} (d : list (string * V)) : list string := d.*1.

(** A source object whose [callRecords] is a dict or a list of dicts, the
    two shapes [pd.json_normalize] is documented for. *)
Definition normalizable (r : object) : bool :=
  match dict_get "callRecords" r with
  | Some (VObjects _) | Some (VObject _) => true
  | _ => false
  end.

(** The keys of [ks] in order of first appearance, those in [seen] left
    out. *)
Fixpoint first_seen (seen ks : list string) : list string :=
  match ks with
  | [] => []
  | k :: ks' =>
      if decide (k ∈ seen) then first_seen seen ks'
      else k :: first_seen (k :: seen) ks'
  end.

(** The column index of a frame given by its rows: the keys of the rows in
    order of first appearance. *)
Definition columns {V} (rows : list (list (string * V))) : list string :=
  first_seen [] (concat (dict_keys <$> rows)).

(** An object whose [callRecords] is a single dict, with its keys in
    another order than [nora] has them. *)
Definition solo : object :=
  [ ("callRecords", VObject
       [ ("callId", SInt 557); ("direction", SStr "Out");
         ("number", SStr "(02) 32367069"); ("duration", SInt 90);
         ("switchCode", SStr "SW5") ]);
    ("extension", VScalar (SInt 12));
    ("name", VScalar (SStr "Olivia Brown")) ].

(** The dict that [build_grid_options] hands over for the rows [data],
    read off a build in a process that holds just that list. *)
Definition options_for (data : list object)
  : option (grid_options (list object)) :=
  match build_grid_options 0%nat (holding data) with
  | (Ok g, st') => snapshot st' g
  | (Raise _, _) => None
  end.

(** ** Further sample inputs *)

(** An object whose [callRecords] is [null]. *)
Definition nulled : object :=
  [ ("name", VScalar (SStr "Ava Jones")); ("callRecords", VScalar SNull) ].


(** A complete answer, then one cut short for the request of pandas. *)
Definition srv_truncated_second : nat → string → http_outcome := λ n _,
  match n with
  | O => Response 200 (Records sample_records)
  | _ => Response 200 Malformed
  end.

Definition no_selection : grid_options (list object) → option (list string) :=
  λ _, None.

(** * Properties *)

(** ** Dictionaries *)

Section Dict.
Context {V : Type}.
Implicit Types (d : list (string * V)) (k : string) (v : V).

Lemma dict_get_set_eq k v d : dict_get k (dict_set k v d) = Some v.
Proof.
  induction d as [|[k' v'] d IH]; simpl.
  - by rewrite decide_True.
  - destruct (decide (k' = k)) as [->|Hne]; simpl.
    + by rewrite decide_True.
    + by rewrite decide_False.
Qed.

Lemma dict_get_set_ne k k' v d :
  k ≠ k' → dict_get k' (dict_set k v d) = dict_get k' d.
Proof.
  intros Hne. induction d as [|[k0 v0] d IH]; simpl.
  - by rewrite decide_False.
  - destruct (decide (k0 = k)) as [->|Hk0]; simpl.
    + by rewrite !decide_False.
    + destruct (decide (k0 = k')); [done | apply IH].
Qed.

Lemma dict_get_fmap {W} (f : V → W) k d :
  dict_get k (prod_map id f <$> d) = f <$> dict_get k d.
Proof.
  induction d as [|[k' v'] d IH]; simpl; [done|].
  destruct (decide (k' = k)); [done | apply IH].
Qed.
End Dict.

(** ** Normalisation of the [callRecords] column *)

Lemma has_call_records_details r :
  has_call_records r = true →
  dict_get "callRecords" r = Some (VObjects (details_of r)).
Proof.
  unfold has_call_records, details_of.
  by destruct (dict_get "callRecords" r) as [[s|os|o]|].
Qed.

Lemma series_apply_cons {A B} (f : A → result B) x col :
  series_apply f (x :: col) =
  match f x with
  | Ok y =>
      match series_apply f col with
      | Ok ys => Ok (y :: ys)
      | Raise e => Raise e
      end
  | Raise e => Raise e
  end.
Proof. unfold series_apply. simpl. by destruct (f x). Qed.

Lemma apply_well_formed rs :
  well_formed rs = true →
  series_apply json_normalize (dict_get "callRecords" <$> rs)
  = Ok (details_of <$> rs).
Proof.
  unfold well_formed.
  induction rs as [|r rs IH]; [done|].
  intros [Hr Hrs]%andb_true_iff.
  rewrite !fmap_cons, series_apply_cons, (IH Hrs).
  by rewrite (has_call_records_details r Hr).
Qed.

Lemma getitem_well_formed rs :
  rs ≠ [] → well_formed rs = true →
  df_getitem rs "callRecords" = Ok (dict_get "callRecords" <$> rs).
Proof.
  unfold df_getitem, well_formed.
  destruct rs as [|r rs]; [done|]. intros _. simpl.
  intros [Hr _]%andb_true_iff.
  by rewrite (has_call_records_details r Hr).
Qed.

Lemma setitem_details rs :
  df_setitem rs "callRecords" (details_of <$> rs) = master_row <$> rs.
Proof.
  unfold df_setitem. induction rs as [|r rs IH]; csimpl; [done|].
  by rewrite IH.
Qed.

Lemma normalize_well_formed rs :
  rs ≠ [] → well_formed rs = true →
  normalize_callRecords rs = Ok (master_row <$> rs).
Proof.
  intros Hne Hwf. unfold normalize_callRecords.
  rewrite (getitem_well_formed rs Hne Hwf).
  unfold mbind at 1, result_bind.
  rewrite (apply_well_formed rs Hwf).
  unfold mbind, result_bind, mret, result_ret.
  by rewrite setitem_details.
Qed.

Lemma normalize_empty :
  normalize_callRecords [] = Raise (KeyError "callRecords").
Proof. reflexivity. Qed.

Lemma getitem_missing rs :
  Forall (λ r, dict_get "callRecords" r = None) rs →
  df_getitem rs "callRecords" = Raise (KeyError "callRecords").
Proof.
  intros Hall. unfold df_getitem.
  assert (existsb (λ r, bool_decide (is_Some (dict_get "callRecords" r))) rs
          = false) as ->; [|done].
  induction Hall as [|r rs Hr _ IH]; simpl; [done|].
  rewrite IH, Hr. by rewrite bool_decide_false by (by intros [? ?]).
Qed.

Lemma getitem_present rs :
  ¬ Forall (λ r, dict_get "callRecords" r = None) rs →
  df_getitem rs "callRecords" = Ok (dict_get "callRecords" <$> rs).
Proof.
  intros Hsome. unfold df_getitem.
  destruct (existsb _ rs) eqn:Hex; [done|].
  exfalso. apply Hsome. clear Hsome.
  induction rs as [|r rs IH]; [constructor|].
  simpl in Hex. apply orb_false_iff in Hex as [Hr Hrs].
  constructor; [|by apply IH].
  apply bool_decide_eq_false in Hr.
  destruct (dict_get "callRecords" r); [|done].
  exfalso. apply Hr. eauto.
Qed.

Lemma apply_raises_not_implemented col e :
  series_apply json_normalize col = Raise e → e = NotImplementedError.
Proof.
  revert e. induction col as [|x col IH]; [done|]. intros e.
  rewrite series_apply_cons.
  destruct (json_normalize x) as [f|e'] eqn:Hx.
  - destruct (series_apply json_normalize col) as [fs|e''] eqn:Hcol; [done|].
    intros [= <-]. by apply IH.
  - intros [= <-]. destruct x as [[s|os|o]|]; simpl in Hx; congruence.
Qed.

Lemma apply_nan col :
  None ∈ col → ∃ e, series_apply json_normalize col = Raise e.
Proof.
  induction col as [|x col IH]; [by intros ?%elem_of_nil|].
  intros Hin. rewrite series_apply_cons.
  destruct (json_normalize x) as [f|e'] eqn:Hx; [|eauto].
  apply elem_of_cons in Hin as [Heq|Hin]; [by subst x|].
  destruct (IH Hin) as [e ->]. eauto.
Qed.

(** ** The loader *)

Lemma orphaned_frame : pd_DataFrame orphaned_records = [orphaned_row].
Proof. reflexivity. Qed.

Lemma concat_orphaned df :
  pd_concat [df; pd_DataFrame orphaned_records] = df ++ [orphaned_row].
Proof. unfold pd_concat. by rewrite orphaned_frame. Qed.

Lemma executions_snoc_requests url st :
  executions url (set_sent (λ l, l ++ [(Requests, url)]) st)
  = S (executions url st).
Proof.
  unfold executions. simpl. rewrite filter_app, length_app.
  rewrite filter_cons_True by done. simpl. lia.
Qed.

Lemma executions_snoc_urllib url url' st :
  executions url (set_sent (λ l, l ++ [(Urllib, url')]) st)
  = executions url st.
Proof.
  unfold executions. simpl. rewrite filter_app, length_app.
  rewrite filter_cons_False by done. simpl. lia.
Qed.

Section LoaderFacts.
Variable server : nat → string → http_outcome.

(** One run of the body, by what the network answers. *)
Lemma load_data_uncached_unfold url st :
  load_data_uncached server url st =
  let st1 := set_sent (λ l, l ++ [(Requests, url)]) st in
  match server (length (sent st)) url with
  | NetworkFailure => (Raise ConnectionError, st1)
  | Response _ Malformed => (Raise JSONDecodeError, st1)
  | Response _ (Records data) =>
      let st2 := set_sent (λ l, l ++ [(Urllib, url)]) st1 in
      match server (S (length (sent st))) url with
      | NetworkFailure => (Raise URLError, st2)
      | Response s b =>
          if bool_decide (200 ≤ s < 300) then
            match b with
            | Malformed => (Raise ValueError, st2)
            | Records rs =>
                match normalize_callRecords rs with
                | Ok df => (Ok (df ++ [orphaned_row], data), st2)
                | Raise e => (Raise e, st2)
                end
            end
          else (Raise (HTTPError s), st2)
      end
  end.
Proof.
  unfold load_data_uncached, requests_get, pd_read_json, request.
  unfold mbind at 1, M_bind. unfold mbind at 1, M_bind. simpl.
  destruct (server (length (sent st)) url) as [|s0 [|data]]; try done.
  unfold response_json. simpl.
  unfold mbind at 1, M_bind. simpl.
  unfold mbind at 1, M_bind. unfold mbind at 1, M_bind. simpl.
  rewrite length_app. simpl. rewrite Nat.add_1_r.
  destruct (server (S (length (sent st))) url) as [|s [|rs]]; try done.
  - unfold raise. by destruct (bool_decide _).
  - destruct (bool_decide _); [|done]. simpl.
    unfold mbind, M_bind, lift. simpl.
    destruct (normalize_callRecords rs) as [df|e]; [|done].
    reflexivity.
Qed.

(** The body never touches the cache or the list objects. *)
Lemma load_data_uncached_frame url st :
  cache (load_data_uncached server url st).2 = cache st ∧
  heap (load_data_uncached server url st).2 = heap st.
Proof.
  rewrite load_data_uncached_unfold. simpl.
  repeat (case_match; simpl; try done).
Qed.

(** A run adds exactly one [requests.get] for its URL. *)
Lemma load_data_uncached_executions url st :
  executions url (load_data_uncached server url st).2
  = S (executions url st).
Proof.
  rewrite load_data_uncached_unfold. simpl.
  repeat (case_match; simpl;
          rewrite ?executions_snoc_urllib, ?executions_snoc_requests;
          try done).
Qed.

Lemma load_data_hit url st v :
  cache st !! url = Some v → load_data server url st = (Ok v, st).
Proof. intros H. unfold load_data, st_cache_data. by rewrite H. Qed.

Lemma load_data_miss url st :
  cache st !! url = None →
  load_data server url st =
  match load_data_uncached server url st with
  | (Ok v, st') => (Ok v, set_cache (λ c, <[url := v]> c) st')
  | (Raise e, st') => (Raise e, st')
  end.
Proof. intros H. unfold load_data, st_cache_data. by rewrite H. Qed.


(** A call that raises leaves the cache as it was. *)
Lemma failed_load_not_cached url st e st' :
  load_data server url st = (Raise e, st') → cache st' = cache st.
Proof.
  unfold load_data, st_cache_data.
  destruct (cache st !! url) as [v|]; [done|].
  pose proof (load_data_uncached_frame url st) as [Hc _].
  destruct (load_data_uncached server url st) as [[v|e'] st1]; [done|].
  by intros [= _ <-].
Qed.
End LoaderFacts.

(** ** The grid options *)

(** Two builds, on any two live lists: what each returns and leaves. *)
Lemma build_grid_options_pair l1 st1 xs1 l2 st2 xs2 :
  heap st1 !! l1 = Some xs1 → heap st2 !! l2 = Some xs2 →
  ∃ g1 g2,
    build_grid_options l1 st1
    = (Ok g1, set_heap (λ h, h ++ [xs1 ++ [orphans_row]]) st1) ∧
    build_grid_options l2 st2
    = (Ok g2, set_heap (λ h, h ++ [xs2 ++ [orphans_row]]) st2) ∧
    rowData g1 = length (heap st1) ∧
    rowData g2 = length (heap st2) ∧
    with_rows g1 () = with_rows g2 ().
Proof.
  intros H1 H2. unfold build_grid_options, deref, alloc.
  unfold mbind, M_bind, mret, M_ret. rewrite H1, H2. simpl.
  eexists _, _. repeat split.
Qed.

Lemma build_grid_options_run l st xs :
  heap st !! l = Some xs →
  ∃ g,
    build_grid_options l st
    = (Ok g, set_heap (λ h, h ++ [xs ++ [orphans_row]]) st) ∧
    rowData g = length (heap st).
Proof.
  intros H. destruct (build_grid_options_pair l st xs l st xs H H)
    as (g & _ & Hg & _ & Hr & _ & _). eauto.
Qed.

Lemma heap_lookup_new (h : list (list object)) xs :
  (h ++ [xs]) !! length h = Some xs.
Proof. by rewrite list_lookup_middle. Qed.

Lemma heap_lookup_old (h : list (list object)) xs l ys :
  h !! l = Some ys → (h ++ [xs]) !! l = Some ys.
Proof. intros H. by rewrite lookup_app_l_Some with (x := ys). Qed.

Lemma with_rows_unit {R S} (g1 g2 : grid_options R) (rows : S) :
  with_rows g1 () = with_rows g2 () → with_rows g1 rows = with_rows g2 rows.
Proof. unfold with_rows. by intros [= -> -> -> -> ->]. Qed.

(** ** The orphan bucket *)

(** A run that returns hands back the normalised answer of the network
    followed by the orphan row. *)
Lemma load_data_uncached_result server url st df data st' :
  load_data_uncached server url st = (Ok (df, data), st') →
  ∃ rs df0, normalize_callRecords rs = Ok df0 ∧ df = df0 ++ [orphaned_row].
Proof.
  rewrite load_data_uncached_unfold. simpl.
  destruct (server (length (sent st)) url) as [|s0 [|data0]]; try done.
  destruct (server (S (length (sent st))) url) as [|s [|rs]]; try done;
    destruct (bool_decide _); try done.
  destruct (normalize_callRecords rs) as [df0|e] eqn:Hn; [|done].
  intros [= <- _ _]. eauto.
Qed.

Lemma count_orphaned_snoc df :
  count_orphaned (df ++ [orphaned_row]) = S (count_orphaned df).
Proof.
  unfold count_orphaned. rewrite filter_app, length_app.
  rewrite filter_cons_True by done. simpl. lia.
Qed.

Lemma count_orphans_snoc rows :
  count_orphans (rows ++ [orphans_row]) = S (count_orphans rows).
Proof.
  unfold count_orphans. rewrite filter_app, length_app.
  rewrite filter_cons_True by done. simpl. lia.
Qed.

(** C1 (defect in the program).  The claim gives the orphan master the
    identity name "Orphaned Record", account "N/A", calls 0, minutes 0 and
    the two fixed detail records, in the loaded dataset and in the row
    payload of the grid alike.  The row that [load_data] appends has that
    identity and those details.  The row that [build_grid_options] appends,
    here to an empty [data_json], has the same details, calls and minutes
    but the name "Orphans" and the number 0 as account, so it does not have
    the identity of the claim. *)
Theorem orphan_identity_differs_in_grid :
  orphan_identity CValue orphaned_row ∧
  dict_get "callRecords" orphaned_row = Some (CFrame spec_orphan_details) ∧
  (∃ g st', build_grid_options 0%nat (holding []) = (Ok g, st') ∧
            heap st' !! rowData g = Some [orphans_row]) ∧
  dict_get "name" orphans_row = Some (VScalar (SStr "Orphans")) ∧
  dict_get "account" orphans_row = Some (VScalar (SInt 0)) ∧
  dict_get "calls" orphans_row = Some (VScalar (SInt 0)) ∧
  dict_get "minutes" orphans_row = Some (VScalar (SInt 0)) ∧
  dict_get "callRecords" orphans_row = Some (VObjects spec_orphan_details) ∧
  ¬ orphan_identity id orphans_row.
Proof.
  repeat split; try reflexivity.
  - eexists _, _. split; reflexivity.
  - intros [Hname _]. discriminate Hname.
Qed.

(** C2, as stated, fails: a source object that looks like the orphan row
    is loaded like any other, and the appended row makes two orphan buckets
    in the frame; a [data_json] that already ends with the orphan row gets
    a second one in [rowData]. *)
Lemma orphan_bucket_twice :
  match (load_data (serve (Records [orphan_lookalike])) DATA_URL init).1 with
  | Ok (df, _) => count_orphaned df = 2%nat
  | Raise _ => False
  end ∧
  match build_grid_options 0%nat (holding [orphans_row]) with
  | (Ok g, st') => count_orphans <$> heap st' !! rowData g = Some 2%nat
  | (Raise _, _) => False
  end.
Proof. split; vm_compute; reflexivity. Qed.

(** C2 (amended).  Appending the orphan bucket, to a frame in [load_data]
    and to the row list in [build_grid_options], gives one element more,
    the last one being the orphan row with the two fixed detail records;
    exactly one orphan row is added, so the result holds one more orphan
    bucket than the input, and exactly one when the input holds none. *)
Theorem orphan_bucket_appended_once (df : frame) st l xs :
  heap st !! l = Some xs →
  (let out := pd_concat [df; pd_DataFrame orphaned_records] in
   length out = S (length df) ∧
   last out = Some orphaned_row ∧
   dict_get "callRecords" orphaned_row = Some (CFrame spec_orphan_details) ∧
   count_orphaned out = S (count_orphaned df) ∧
   (count_orphaned df = 0%nat → count_orphaned out = 1%nat)) ∧
  (∃ g st' out,
     build_grid_options l st = (Ok g, st') ∧
     heap st' !! rowData g = Some out ∧
     length out = S (length xs) ∧
     last out = Some orphans_row ∧
     dict_get "callRecords" orphans_row = Some (VObjects spec_orphan_details) ∧
     count_orphans out = S (count_orphans xs) ∧
     (count_orphans xs = 0%nat → count_orphans out = 1%nat)).
Proof.
  intros Hl. split.
  - cbv zeta.
    rewrite concat_orphaned, length_app, last_snoc, count_orphaned_snoc.
    simpl. repeat split; [lia | by intros ->].
  - destruct (build_grid_options_run l st xs Hl) as (g & Hrun & Hrow).
    eexists g, _, (xs ++ [orphans_row]). split; [exact Hrun|].
    simpl. rewrite Hrow, heap_lookup_new, length_app, last_snoc.
    rewrite count_orphans_snoc. simpl.
    repeat split; [lia | by intros ->].
Qed.

Lemma orphan_bucket_appended_once_witness :
  count_orphaned (pd_concat [master_row <$> sample_records;
                             pd_DataFrame orphaned_records]) = 1%nat ∧
  ∃ g st' out,
    build_grid_options 0%nat (holding sample_records) = (Ok g, st') ∧
    heap st' !! rowData g = Some out ∧
    count_orphans out = 1%nat.
Proof.
  destruct (orphan_bucket_appended_once (master_row <$> sample_records)
              (holding sample_records) 0%nat sample_records eq_refl)
    as [(_ & _ & _ & _ & Hone) (g & st' & out & Hrun & Hout & _ & _ & _ & _ & Hone')].
  split; [apply Hone; reflexivity|].
  exists g, st', out. repeat split; [exact Hrun | exact Hout |].
  apply Hone'. reflexivity.
Defined.

(** ** The cache *)



Lemma normalize_ok_inv rs df :
  normalize_callRecords rs = Ok df →
  rs ≠ [] ∧ forallb normalizable rs = true ∧ df = master_row <$> rs.
Proof.
  intros Hok.
  assert (rs ≠ []) as Hne by (by intros ->).
  split; [done|].
  unfold normalize_callRecords, df_getitem in Hok.
  destruct (existsb (λ r, bool_decide (is_Some (dict_get "callRecords" r)))
              rs); [|done].
  unfold mbind at 1, result_bind in Hok.
  unfold mbind at 1, result_bind in Hok.
  destruct (series_apply json_normalize (dict_get "callRecords" <$> rs))
    as [fs|e] eqn:Hfs; [|done].
  injection Hok as <-.
  assert (forallb normalizable rs = true ∧ fs = details_of <$> rs)
    as [Hall ->].
  { clear Hne. revert fs Hfs. induction rs as [|r rs IH]; intros fs.
    - by intros [= <-].
    - rewrite fmap_cons, series_apply_cons.
      destruct (json_normalize (dict_get "callRecords" r)) as [f|e] eqn:Hr;
        [|done].
      destruct (series_apply json_normalize (dict_get "callRecords" <$> rs))
        as [fs'|e] eqn:Hrs; [|done].
      intros [= <-]. destruct (IH fs' eq_refl) as [Hall ->].
      simpl. rewrite Hall, andb_true_r.
      unfold normalizable, details_of.
      destruct (dict_get "callRecords" r) as [[s|os|o]|];
        simpl in Hr; try done; by injection Hr as <-. }
  split; [exact Hall | apply setitem_details].
Qed.



Lemma executions_after_same_load server url st :
  (executions url (load_data server url st).2 ≤ S (executions url st))%nat.
Proof.
  unfold load_data, st_cache_data.
  destruct (cache st !! url) as [v|]; simpl; [lia|].
  pose proof (load_data_uncached_executions server url st) as Hex.
  destruct (load_data_uncached server url st) as [[v|e] st1];
    simpl in *; unfold executions in *; simpl; lia.
Qed.





(** C4.  When the body of the response is not JSON, [load_data] raises the
    decode error of [response.json()] and the cache keeps no entry for the
    URL; a later call for the same URL, answered with a well-formed array
    (under a 2xx status for the request of pandas), returns the dataset and
    stores it. *)
Theorem malformed_body_not_cached server url st s :
  cache st !! url = None →
  server (length (sent st)) url = Response s Malformed →
  ∃ st1,
    load_data server url st = (Raise JSONDecodeError, st1) ∧
    classify JSONDecodeError = DecodeError ∧
    cache st1 = cache st ∧
    cache st1 !! url = None ∧
    ∀ s1 data s2 rs,
      server (length (sent st1)) url = Response s1 (Records data) →
      server (S (length (sent st1))) url = Response s2 (Records rs) →
      200 ≤ s2 < 300 →
      rs ≠ [] → well_formed rs = true →
      ∃ st2,
        load_data server url st1
        = (Ok ((master_row <$> rs) ++ [orphaned_row], data), st2) ∧
        cache st2 !! url
        = Some ((master_row <$> rs) ++ [orphaned_row], data).
Proof.
  intros Hmiss Hbad.
  exists (set_sent (λ l, l ++ [(Requests, url)]) st).
  rewrite (load_data_miss server url st Hmiss), load_data_uncached_unfold.
  cbv zeta. rewrite Hbad. repeat split; [done|].
  intros s1 data s2 rs H1 H2 Hs Hne Hwf.
  rewrite load_data_miss by done.
  rewrite load_data_uncached_unfold. cbv zeta. rewrite H1, H2.
  rewrite bool_decide_true by done.
  rewrite (normalize_well_formed rs Hne Hwf).
  eexists. split; [reflexivity|]. simpl. apply lookup_insert_eq.
Qed.

Lemma malformed_body_not_cached_witness :
  ∃ st1 st2,
    load_data srv_truncated_once DATA_URL init = (Raise JSONDecodeError, st1) ∧
    cache st1 !! DATA_URL = None ∧
    load_data srv_truncated_once DATA_URL st1
    = (Ok ((master_row <$> sample_records) ++ [orphaned_row], sample_records),
       st2).
Proof.
  destruct (malformed_body_not_cached srv_truncated_once DATA_URL init 200
              eq_refl eq_refl) as (st1 & Hfail & _ & Hc & Hnone & Hretry).
  assert (length (sent st1) = 1%nat) as Hlen.
  { revert Hfail. vm_compute. intros [= <-]. reflexivity. }
  destruct (Hretry 200 sample_records 200 sample_records) as (st2 & Hok & _).
  - rewrite Hlen. reflexivity.
  - rewrite Hlen. reflexivity.
  - lia.
  - discriminate.
  - reflexivity.
  - exists st1, st2. repeat split; [exact Hfail | exact Hnone | exact Hok].
Defined.

(** ** Fetch failures *)

(** C5, as stated, fails: a 500 whose body is a JSON array is not turned
    into an error; its body is decoded, a second request is made for the
    frame, and the load returns the data that came with the 500. *)
Lemma non_2xx_is_decoded :
  ∃ df st',
    load_data srv_500_then_200 DATA_URL init
    = (Ok (df, sample_records), st') ∧
    srv_500_then_200 0 DATA_URL = Response 500 (Records sample_records) ∧
    sent st' = [(Requests, DATA_URL); (Urllib, DATA_URL)].
Proof. eexists _, _. repeat split. Qed.

(** C5 (amended).  A load that gets no answer to its first request fails
    with a connection error after that one request.  The first fetch does
    not look at the status: a body that decodes is kept whatever the status
    and the frame is then fetched with a second request.  That second fetch
    fails with a URL error when there is no answer and with an HTTP error
    carrying the status when the status is outside 200..299.  Each failure
    is a fetch error, is raised after a single attempt of the request that
    failed, and leaves the cache without an entry. *)
Theorem fetch_failures_single_attempt server url st :
  cache st !! url = None →
  let n := length (sent st) in
  let st1 := set_sent (λ l, l ++ [(Requests, url)]) st in
  let st2 := set_sent (λ l, l ++ [(Urllib, url)]) st1 in
  (server n url = NetworkFailure →
     load_data server url st = (Raise ConnectionError, st1) ∧
     classify ConnectionError = FetchError) ∧
  (∀ s data,
     server n url = Response s (Records data) →
     server (S n) url = NetworkFailure →
     load_data server url st = (Raise URLError, st2) ∧
     classify URLError = FetchError) ∧
  (∀ s data s2 b,
     server n url = Response s (Records data) →
     server (S n) url = Response s2 b →
     ¬ (200 ≤ s2 < 300) →
     load_data server url st = (Raise (HTTPError s2), st2) ∧
     classify (HTTPError s2) = FetchError) ∧
  cache st1 !! url = None ∧ cache st2 !! url = None.
Proof.
  intros Hmiss. cbv zeta.
  rewrite (load_data_miss server url st Hmiss), load_data_uncached_unfold.
  cbv zeta. split; [|split; [|split]].
  - by intros ->.
  - by intros s data -> ->.
  - intros s data s2 b -> -> Hs. by rewrite bool_decide_false.
  - done.
Qed.

Lemma fetch_failures_single_attempt_witness :
  load_data srv_down DATA_URL init
  = (Raise ConnectionError, mkState [(Requests, DATA_URL)] ∅ []) ∧
  load_data srv_200_then_down DATA_URL init
  = (Raise URLError,
     mkState [(Requests, DATA_URL); (Urllib, DATA_URL)] ∅ []) ∧
  load_data srv_200_then_503 DATA_URL init
  = (Raise (HTTPError 503),
     mkState [(Requests, DATA_URL); (Urllib, DATA_URL)] ∅ []).
Proof.
  split; [|split].
  - apply (fetch_failures_single_attempt srv_down DATA_URL init eq_refl).
    reflexivity.
  - apply (proj1 (proj2 (fetch_failures_single_attempt srv_200_then_down
                           DATA_URL init eq_refl)) 200 sample_records);
      reflexivity.
  - apply (proj1 (proj2 (proj2 (fetch_failures_single_attempt
                                  srv_200_then_503 DATA_URL init eq_refl)))
             200 sample_records 503 Malformed); [reflexivity..|lia].
Defined.

(** ** Normalisation *)

(** C6, as stated, fails on the empty array: it is a well-formed array of
    objects, yet its frame has no [callRecords] column, so the lookup of
    that column raises and no frame of zero rows is produced. *)
Lemma empty_array_not_normalised :
  well_formed [] = true ∧
  normalize_callRecords [] = Raise (KeyError "callRecords") ∧
  (load_data (serve (Records [])) DATA_URL init).1
  = Raise (KeyError "callRecords").
Proof. repeat split. Qed.

(** C6 (amended).  For every non-empty well-formed array, normalisation
    returns a frame with as many rows as the array has objects; row [i]
    comes from object [i]: its plain cells are the values of that object
    under the same keys, and its [callRecords] cell is the frame whose rows
    are the detail objects of that object, one per object, in source
    order. *)
Theorem normalize_preserves_order rs :
  rs ≠ [] → well_formed rs = true →
  ∃ df,
    normalize_callRecords rs = Ok df ∧
    length df = length rs ∧
    ∀ i (r : object), rs !! i = Some r →
      ∃ row os,
        df !! i = Some row ∧
        dict_get "callRecords" r = Some (VObjects os) ∧
        dict_get "callRecords" row = Some (CFrame os) ∧
        ∀ k, k ≠ "callRecords" → dict_get k row = CValue <$> dict_get k r.
Proof.
  intros Hne Hwf. exists (master_row <$> rs).
  split; [by apply normalize_well_formed|].
  split; [by rewrite length_fmap|].
  intros i r Hi. exists (master_row r), (details_of r).
  assert (has_call_records r = true) as Hr.
  { unfold well_formed in Hwf. rewrite forallb_forall in Hwf.
    apply Hwf. apply list_elem_of_In. by apply list_elem_of_lookup_2 in Hi. }
  repeat split.
  - by rewrite list_lookup_fmap, Hi.
  - by apply has_call_records_details.
  - unfold master_row. apply dict_get_set_eq.
  - intros k Hk. unfold master_row.
    rewrite dict_get_set_ne by done. apply dict_get_fmap.
Qed.

Lemma normalize_preserves_order_witness :
  ∃ df,
    normalize_callRecords sample_records = Ok df ∧
    length df = 2%nat.
Proof.
  destruct (normalize_preserves_order sample_records) as (df & Hdf & Hlen & _).
  - discriminate.
  - reflexivity.
  - exists df. split; [exact Hdf | exact Hlen].
Defined.

(** C7, as stated, fails: when one object of the array has [callRecords]
    and another has not, the column exists and holds NaN for the latter;
    [pd.json_normalize] rejects the NaN with an error that names no key. *)
Lemma missing_key_not_named :
  dict_get "callRecords" bare = None ∧
  normalize_callRecords [mila; bare] = Raise NotImplementedError ∧
  NotImplementedError ≠ KeyError "callRecords".
Proof. repeat split. discriminate. Qed.

(** C7 (amended).  When some object of the array has no [callRecords],
    normalisation fails with a schema error and produces no frame.  The
    error is the key error that names [callRecords] exactly when no object
    of the array has the field; otherwise it is the error of
    [pd.json_normalize], which names no key. *)
Theorem missing_callRecords_fails rs r :
  r ∈ rs → dict_get "callRecords" r = None →
  ∃ e,
    normalize_callRecords rs = Raise e ∧
    classify e = SchemaError ∧
    (e = KeyError "callRecords" ∨ e = NotImplementedError) ∧
    (e = KeyError "callRecords" ↔
     Forall (λ r', dict_get "callRecords" r' = None) rs).
Proof.
  intros Hin Hr. unfold normalize_callRecords.
  destruct (decide (Forall (λ r', dict_get "callRecords" r' = None) rs))
    as [Hall|Hsome].
  - rewrite (getitem_missing rs Hall). exists (KeyError "callRecords").
    repeat split; auto.
  - rewrite (getitem_present rs Hsome).
    unfold mbind at 1, result_bind.
    destruct (apply_nan (dict_get "callRecords" <$> rs)) as [e He].
    { rewrite <- Hr. by apply list_elem_of_fmap_2. }
    rewrite He.
    pose proof (apply_raises_not_implemented _ _ He) as ->.
    exists NotImplementedError. repeat split; auto; done.
Qed.

Lemma missing_callRecords_fails_witness :
  ∃ e, normalize_callRecords [bare; bare] = Raise e ∧
       e = KeyError "callRecords".
Proof.
  destruct (missing_callRecords_fails [bare; bare] bare) as (e & He & _ & _ & Hiff).
  - apply list_elem_of_here.
  - reflexivity.
  - exists e. split; [exact He|]. apply Hiff. repeat constructor.
Defined.

(** ** Formatters *)




(** ** Purity of the builder *)

(** C9.  Two builds from lists with the same elements, in whatever states
    and at whatever addresses, both return, and the dicts they return are
    equal when read with their rows; a build sends no request, leaves the
    cache alone and changes no list object: it only adds the new row
    list. *)
Theorem build_grid_options_deterministic l1 st1 l2 st2 xs :
  heap st1 !! l1 = Some xs → heap st2 !! l2 = Some xs →
  ∃ g1 g2 st1' st2',
    build_grid_options l1 st1 = (Ok g1, st1') ∧
    build_grid_options l2 st2 = (Ok g2, st2') ∧
    snapshot st1' g1 = snapshot st2' g2 ∧
    snapshot st1' g1 = Some (with_rows g1 (xs ++ [orphans_row])) ∧
    sent st1' = sent st1 ∧
    cache st1' = cache st1 ∧
    heap st1' = heap st1 ++ [xs ++ [orphans_row]].
Proof.
  intros H1 H2.
  destruct (build_grid_options_pair l1 st1 xs l2 st2 xs H1 H2)
    as (g1 & g2 & Hrun1 & Hrun2 & Hr1 & Hr2 & Hconf).
  eexists g1, g2, _, _. split; [exact Hrun1|]. split; [exact Hrun2|].
  unfold snapshot. rewrite Hr1, Hr2. simpl.
  rewrite !heap_lookup_new. simpl.
  repeat split. f_equal. by apply with_rows_unit.
Qed.

Lemma build_grid_options_deterministic_witness :
  ∃ g1 g2 st1 st2,
    build_grid_options 0%nat (holding sample_records) = (Ok g1, st1) ∧
    build_grid_options 0%nat st1 = (Ok g2, st2) ∧
    snapshot st1 g1 = snapshot st2 g2.
Proof.
  destruct (build_grid_options_deterministic
              0%nat (holding sample_records)
              0%nat (set_heap (λ h, h ++ [sample_records ++ [orphans_row]])
                       (holding sample_records))
              sample_records eq_refl eq_refl)
    as (g1 & g2 & st1 & st2 & Hrun1 & Hrun2 & Hsnap & _).
  exists g1, g2, st1, st2.
  assert (st1 = set_heap (λ h, h ++ [sample_records ++ [orphans_row]])
                  (holding sample_records)) as Hst1.
  { revert Hrun1. vm_compute. by intros [= _ <-]. }
  split; [exact Hrun1|]. split; [|exact Hsnap].
  rewrite Hst1. exact Hrun2.
Defined.

(** C10.  However many times the options are built from the same list
    object, that object holds the same elements afterwards, every other
    list object that existed is unchanged as well, and so is the cache;
    every build returns, and its [rowData] is a new list object holding the
    elements of the argument followed by one orphan row. *)
Theorem build_grid_options_leaves_argument n l st xs :
  heap st !! l = Some xs →
  heap (build_grid_options_n n l st).2 !! l = Some xs ∧
  (∀ l' ys, heap st !! l' = Some ys →
            heap (build_grid_options_n n l st).2 !! l' = Some ys) ∧
  cache (build_grid_options_n n l st).2 = cache st ∧
  length (build_grid_options_n n l st).1 = n ∧
  Forall (λ r, ∃ g, r = Ok g ∧ rowData g ≠ l ∧ ¬ rowData g < length (heap st)
                    ∧ heap (build_grid_options_n n l st).2 !! rowData g
                      = Some (xs ++ [orphans_row]))%nat
         (build_grid_options_n n l st).1.
Proof.
  revert st. induction n as [|n IH]; intros st Hl.
  - simpl. repeat split; auto.
  - destruct (build_grid_options_run l st xs Hl) as (g & Hrun & Hrow).
    simpl. rewrite Hrun.
    set (st1 := set_heap (λ h, h ++ [xs ++ [orphans_row]]) st) in *.
    assert (heap st1 !! l = Some xs) as Hl1 by by apply heap_lookup_old.
    destruct (IH st1 Hl1) as (Harg & Hframe & Hcache & Hlen & Hrows).
    destruct (build_grid_options_n n l st1) as [rs st2]. simpl in *.
    repeat split.
    + exact Harg.
    + intros l' ys Hl'. apply Hframe. by apply heap_lookup_old.
    + exact Hcache.
    + by rewrite Hlen.
    + constructor.
      * exists g. repeat split.
        -- rewrite Hrow. intros Heq. subst l.
           apply lookup_lt_Some in Hl. lia.
        -- rewrite Hrow. lia.
        -- apply Hframe. rewrite Hrow. apply heap_lookup_new.
      * eapply Forall_impl; [exact Hrows|]. simpl.
        intros r (g' & -> & Hne & Hnew & Hg'). exists g'.
        repeat split; [done| |done].
        rewrite length_app in Hnew. simpl in Hnew. lia.
Qed.

Lemma build_grid_options_leaves_argument_witness :
  heap (build_grid_options_n 3 0%nat (holding sample_records)).2 !! 0%nat
  = Some sample_records ∧
  length (build_grid_options_n 3 0%nat (holding sample_records)).1 = 3%nat.
Proof.
  destruct (build_grid_options_leaves_argument 3 0%nat
              (holding sample_records) sample_records eq_refl)
    as (Harg & _ & _ & Hlen & _).
  split; [exact Harg | exact Hlen].
Defined.

(** ** Reruns of the script *)

(** Once the dataset is cached, a rerun of [main] sends no request, leaves
    the cache as it is and hands the grid the cached raw rows followed by
    one orphan row. *)
Lemma main_rerun server st df data :
  cache st !! DATA_URL = Some (df, data) →
  ∃ g st',
    main server st = (Ok g, st') ∧
    snapshot st' g = Some (with_rows g (data ++ [orphans_row])) ∧
    cache st' = cache st ∧
    sent st' = sent st.
Proof.
  intros Hhit. unfold main.
  unfold mbind at 1, M_bind. rewrite (load_data_hit server _ st _ Hhit).
  unfold mbind at 1, M_bind, alloc.
  set (st1 := set_heap (λ h, h ++ [data]) st).
  destruct (build_grid_options_run (length (heap st)) st1 data)
    as (g & Hrun & Hrow); [apply heap_lookup_new|].
  unfold mbind, M_bind. rewrite Hrun.
  eexists g, _. split; [reflexivity|].
  unfold snapshot. rewrite Hrow. cbn [heap set_heap].
  by rewrite heap_lookup_new.
Qed.

(** * Further properties *)

(** ** Normalisation, in full *)

Lemma apply_rejects col x e0 :
  x ∈ col → json_normalize x = Raise e0 →
  series_apply json_normalize col = Raise NotImplementedError.
Proof.
  intros Hin Hx.
  assert (∃ e, series_apply json_normalize col = Raise e) as [e He].
  { induction col as [|y col IH]; [by apply elem_of_nil in Hin|].
    rewrite series_apply_cons.
    destruct (json_normalize y) as [f|e'] eqn:Hy; [|eauto].
    apply elem_of_cons in Hin as [Heq|Hin]; [congruence|].
    destruct (IH Hin) as [e ->]. eauto. }
  by rewrite He, (apply_raises_not_implemented col e He).
Qed.

Lemma normalize_normalizable rs :
  rs ≠ [] → forallb normalizable rs = true →
  normalize_callRecords rs = Ok (master_row <$> rs).
Proof.
  intros Hne Hall. unfold normalize_callRecords.
  rewrite getitem_present.
  - unfold mbind at 1, result_bind.
    assert (series_apply json_normalize (dict_get "callRecords" <$> rs)
            = Ok (details_of <$> rs)) as ->.
    { clear Hne. induction rs as [|r rs IH]; [done|].
      simpl in Hall. apply andb_true_iff in Hall as [Hr Hrs].
      rewrite !fmap_cons, series_apply_cons, (IH Hrs).
      unfold normalizable in Hr. unfold details_of.
      by destruct (dict_get "callRecords" r) as [[s|os|o]|]. }
    unfold mbind, result_bind, mret, result_ret.
    by rewrite setitem_details.
  - destruct rs as [|r rs]; [done|]. intros Hnone.
    apply Forall_cons in Hnone as [Hr _].
    simpl in Hall. apply andb_true_iff in Hall as [Hn _].
    unfold normalizable in Hn. by rewrite Hr in Hn.
Qed.

(** The lookup of the column and the conversion of its cells succeed
    exactly when the array is not empty and every object has a dict or a
    list of dicts under [callRecords]; the frame is then the array with
    each such value turned into a frame, a dict giving a frame of one row.
    Nothing else is asked of an object: [name], [account], [calls] and
    [minutes] may be missing. *)
Theorem normalize_succeeds_iff rs df :
  normalize_callRecords rs = Ok df ↔
  rs ≠ [] ∧ forallb normalizable rs = true ∧ df = master_row <$> rs.
Proof.
  split.
  - apply normalize_ok_inv.
  - intros (Hne & Hall & ->). by apply normalize_normalizable.
Qed.

Lemma normalize_succeeds_iff_witness :
  normalize_callRecords [solo; mila] = Ok [master_row solo; master_row mila] ∧
  dict_get "callRecords" (master_row solo)
  = Some (CFrame [ [ ("callId", SInt 557); ("direction", SStr "Out");
                     ("number", SStr "(02) 32367069"); ("duration", SInt 90);
                     ("switchCode", SStr "SW5") ] ]).
Proof.
  split; [|reflexivity].
  apply (normalize_succeeds_iff [solo; mila] [master_row solo; master_row mila]).
  repeat split. discriminate.
Defined.

(** An object whose [callRecords] is [null], a boolean, a number or a
    string makes the whole load fail with the error of
    [pd.json_normalize], wherever the object stands in the array. *)
Theorem scalar_callRecords_rejected rs r s :
  r ∈ rs → dict_get "callRecords" r = Some (VScalar s) →
  normalize_callRecords rs = Raise NotImplementedError.
Proof.
  intros Hin Hr. unfold normalize_callRecords.
  rewrite getitem_present.
  - unfold mbind at 1, result_bind.
    rewrite (apply_rejects _ (Some (VScalar s)) NotImplementedError);
      [done| |done].
    rewrite <- Hr. by apply list_elem_of_fmap_2.
  - intros Hall. rewrite Forall_forall in Hall.
    specialize (Hall r Hin). congruence.
Qed.

Lemma scalar_callRecords_rejected_witness :
  normalize_callRecords [nora; nulled; mila] = Raise NotImplementedError.
Proof.
  apply (scalar_callRecords_rejected [nora; nulled; mila] nulled SNull).
  - apply list_elem_of_further, list_elem_of_here.
  - reflexivity.
Defined.

Lemma dict_set_keys {V} k (v : V) d :
  is_Some (dict_get k d) → dict_keys (dict_set k v d) = dict_keys d.
Proof.
  unfold dict_keys. induction d as [|[k' v'] d IH]; simpl.
  - by intros [? ?].
  - destruct (decide (k' = k)) as [->|Hne]; [done|].
    intros H. csimpl. by rewrite IH.
Qed.

Lemma dict_keys_fmap {V W} (f : V → W) (d : list (string * V)) :
  dict_keys (prod_map id f <$> d) = dict_keys d.
Proof.
  unfold dict_keys. induction d as [|[k v] d IH]; csimpl; [done|].
  by rewrite IH.
Qed.

Lemma master_row_keys r :
  normalizable r = true → dict_keys (master_row r) = dict_keys r.
Proof.
  intros Hr. unfold master_row. rewrite dict_set_keys.
  - apply dict_keys_fmap.
  - rewrite dict_get_fmap. unfold normalizable in Hr.
    destruct (dict_get "callRecords" r) as [[s|os|o]|]; try done; by eexists.
Qed.

Lemma master_rows_keys rs :
  forallb normalizable rs = true →
  dict_keys <$> (master_row <$> rs) = dict_keys <$> rs.
Proof.
  induction rs as [|r rs IH]; [done|].
  intros Hall. cbn [forallb] in Hall.
  apply andb_true_iff in Hall as [Hr Hrs].
  by rewrite !fmap_cons, (master_row_keys r Hr), (IH Hrs).
Qed.

(** The column index survives the load: the normalised frame has the
    columns of the decoded array, which are the keys of its objects in
    order of first appearance, and the returned frame has those columns
    followed by the columns of the orphan row that are not among them.
    No column is dropped or moved. *)
Theorem load_keeps_columns rs (df : frame) :
  normalize_callRecords rs = Ok df →
  columns df = columns rs ∧
  columns (pd_concat [df; pd_DataFrame orphaned_records])
  = first_seen [] (concat (dict_keys <$> rs)
                   ++ ["name"; "account"; "calls"; "minutes"; "callRecords"]).
Proof.
  intros (_ & Hall & ->)%normalize_ok_inv.
  unfold columns. rewrite concat_orphaned, fmap_app, concat_app.
  rewrite (master_rows_keys rs Hall). split; [done|].
  reflexivity.
Qed.

Lemma load_keeps_columns_witness :
  columns (pd_concat [[master_row solo; master_row nora];
                      pd_DataFrame orphaned_records])
  = ["callRecords"; "extension"; "name"; "account"; "calls"; "minutes"].
Proof.
  destruct (load_keeps_columns [solo; nora] [master_row solo; master_row nora]
              eq_refl) as [_ Hcols].
  rewrite Hcols. reflexivity.
Defined.

(** ** The loader, in full *)



(** A body that is not JSON in the answer to [pd.read_json], under a 2xx
    status, fails the load with the [ValueError] of pandas, a decode error,
    although [response.json()] had decoded the first answer; both requests
    have been sent and nothing is cached. *)
Theorem second_body_malformed server url st s data s2 :
  cache st !! url = None →
  server (length (sent st)) url = Response s (Records data) →
  server (S (length (sent st))) url = Response s2 Malformed →
  200 ≤ s2 < 300 →
  ∃ st',
    load_data server url st = (Raise ValueError, st') ∧
    classify ValueError = DecodeError ∧
    sent st' = sent st ++ [(Requests, url); (Urllib, url)] ∧
    cache st' = cache st.
Proof.
  intros Hmiss H1 H2 Hs.
  rewrite (load_data_miss server url st Hmiss), load_data_uncached_unfold.
  cbv zeta. rewrite H1, H2, bool_decide_true by done.
  eexists. repeat split. simpl. by rewrite <- app_assoc.
Qed.

Lemma second_body_malformed_witness :
  ∃ st', load_data srv_truncated_second DATA_URL init
         = (Raise ValueError, st').
Proof.
  destruct (second_body_malformed srv_truncated_second DATA_URL init
              200 sample_records 200) as (st' & Hrun & _);
    try reflexivity; [lia|].
  exists st'. exact Hrun.
Defined.

(** One call of [load_data] sends no request when the URL is cached and
    otherwise one request through [requests], followed by at most one
    through urllib; every request goes to the URL of the call, and no
    earlier entry of the log is changed. *)
Theorem load_data_requests server url st :
  ∃ new,
    sent (load_data server url st).2 = sent st ++ new ∧
    (new = [] ∨ new = [(Requests, url)] ∨
     new = [(Requests, url); (Urllib, url)]) ∧
    (is_Some (cache st !! url) ↔ new = []).
Proof.
  destruct (cache st !! url) as [v|] eqn:Hc.
  - rewrite (load_data_hit server url st v Hc). exists [].
    rewrite app_nil_r. repeat split; eauto.
  - rewrite (load_data_miss server url st Hc), load_data_uncached_unfold.
    cbv zeta.
    assert (∀ new : list (client * string),
              new ≠ [] → is_Some (@None dataset) ↔ new = []) as Hno.
    { intros new Hnew. split; [by intros [? ?] | done]. }
    destruct (server (length (sent st)) url) as [|s0 [|data]].
    + exists [(Requests, url)]. simpl. split; [done|]. split; [auto|].
      by apply Hno.
    + exists [(Requests, url)]. simpl. split; [done|]. split; [auto|].
      by apply Hno.
    + exists [(Requests, url); (Urllib, url)].
      split; [|split; [auto | by apply Hno]].
      destruct (server (S (length (sent st))) url) as [|s [|rs]];
        [|destruct (bool_decide _)
         |destruct (bool_decide _);
          [destruct (normalize_callRecords rs)|]];
        simpl; by rewrite <- app_assoc.
Qed.

(** Whatever exception [load_data] raises is a fetch, decode or schema
    error of the libraries, and the call that raised has changed neither
    the cache nor any list object. *)
Theorem load_data_raises server url st e st' :
  load_data server url st = (Raise e, st') →
  classify e ≠ InternalError ∧
  (classify e = SchemaError →
   e = KeyError "callRecords" ∨ e = NotImplementedError) ∧
  cache st' = cache st ∧
  heap st' = heap st.
Proof.
  intros Hrun.
  pose proof (failed_load_not_cached server url st e st' Hrun) as Hc.
  unfold load_data, st_cache_data in Hrun.
  destruct (cache st !! url) as [v|]; [done|].
  pose proof (load_data_uncached_frame server url st) as [_ Hh].
  rewrite load_data_uncached_unfold in Hrun, Hh. cbv zeta in Hrun, Hh.
  destruct (server (length (sent st)) url) as [|s0 [|data]].
  - injection Hrun as <- <-. repeat split; done.
  - injection Hrun as <- <-. repeat split; done.
  - destruct (server (S (length (sent st))) url) as [|s [|rs]].
    + injection Hrun as <- <-. repeat split; done.
    + destruct (bool_decide _); injection Hrun as <- <-; repeat split; done.
    + destruct (bool_decide _).
      * destruct (normalize_callRecords rs) as [df|e'] eqn:Hn; [done|].
        injection Hrun as <- <-.
        assert (e' = KeyError "callRecords" ∨ e' = NotImplementedError)
          as Hcases.
        { unfold normalize_callRecords, df_getitem in Hn.
          destruct (existsb (λ r, bool_decide
                      (is_Some (dict_get "callRecords" r))) rs).
          - unfold mbind at 1, result_bind in Hn.
            unfold mbind at 1, result_bind in Hn.
            destruct (series_apply json_normalize
                        (dict_get "callRecords" <$> rs)) as [fs|e''] eqn:Hfs;
              [done|].
            injection Hn as <-. right.
            by apply (apply_raises_not_implemented _ _ Hfs).
          - injection Hn as <-. by left. }
        repeat split; [|done..].
        by destruct Hcases as [-> | ->].
      * injection Hrun as <- <-. repeat split; done.
Qed.

Lemma load_data_raises_witness :
  classify (KeyError "callRecords") ≠ InternalError ∧
  cache (load_data (serve (Records [bare])) DATA_URL init).2 = ∅.
Proof.
  destruct (load_data_raises (serve (Records [bare])) DATA_URL init
              (KeyError "callRecords")
              (load_data (serve (Records [bare])) DATA_URL init).2 eq_refl)
    as (Hk & _ & Hc & _).
  split; [exact Hk | exact Hc].
Defined.

(** ** The cache, in full *)

Lemma load_data_cache server url st :
  cache (load_data server url st).2 = cache st ∨
  ∃ v, cache st !! url = None ∧
       (load_data server url st).1 = Ok v ∧
       cache (load_data server url st).2 = <[url := v]> (cache st).
Proof.
  unfold load_data, st_cache_data.
  destruct (cache st !! url) as [v|] eqn:Hc; [by left|].
  pose proof (load_data_uncached_frame server url st) as [Hcache _].
  destruct (load_data_uncached server url st) as [[v|e] st1]; simpl in *.
  - right. exists v. by rewrite Hcache.
  - by left.
Qed.

(** The store is keyed by the URL and only ever grows: a call of
    [load_data] leaves the entries of all other URLs as they are, and an
    entry that exists, for the URL of the call too, is neither replaced
    nor removed. *)
Theorem cache_only_grows server url st :
  (∀ u, u ≠ url →
        cache (load_data server url st).2 !! u = cache st !! u) ∧
  (∀ u v, cache st !! u = Some v →
          cache (load_data server url st).2 !! u = Some v).
Proof.
  destruct (load_data_cache server url st) as [->|(v & Hmiss & _ & ->)].
  - done.
  - split.
    + intros u Hu. by rewrite lookup_insert_ne.
    + intros u v' Hu. rewrite lookup_insert_ne; [done|]. congruence.
Qed.

Lemma cache_only_grows_witness :
  cache (load_data srv_down "https://example.org/other.json"
           (load_data (serve (Records sample_records)) DATA_URL init).2).2
    !! DATA_URL
  = Some ((master_row <$> sample_records) ++ [orphaned_row], sample_records).
Proof.
  apply (cache_only_grows srv_down "https://example.org/other.json"
           (load_data (serve (Records sample_records)) DATA_URL init).2).
  reflexivity.
Defined.

(** Once a call for a URL has returned, every later call for that URL
    returns the same dataset without sending a request, whatever the
    network would answer by then: the entry is never refreshed. *)
Theorem cached_answer_is_final server url st v st1 server' :
  load_data server url st = (Ok v, st1) →
  load_data server' url st1 = (Ok v, st1).
Proof.
  intros Hrun. apply load_data_hit.
  unfold load_data, st_cache_data in Hrun.
  destruct (cache st !! url) as [v0|] eqn:Hc.
  - by injection Hrun as <- <-.
  - destruct (load_data_uncached server url st) as [[v0|e] st0]; [|done].
    injection Hrun as <- <-. simpl. apply lookup_insert_eq.
Qed.

Lemma cached_answer_is_final_witness :
  let st1 := (load_data (serve (Records sample_records)) DATA_URL init).2 in
  load_data srv_down DATA_URL st1
  = (Ok ((master_row <$> sample_records) ++ [orphaned_row], sample_records),
     st1).
Proof.
  apply (cached_answer_is_final (serve (Records sample_records)) DATA_URL
           init _ _ srv_down).
  reflexivity.
Defined.

Lemma master_row_has_frame r :
  ∃ f, dict_get "callRecords" (master_row r) = Some (CFrame f).
Proof. exists (details_of r). apply dict_get_set_eq. Qed.

Lemma loaded_frame_ok server url st df data st' :
  load_data_uncached server url st = (Ok (df, data), st') → frame_ok df.
Proof.
  intros (rs & df0 & (Hne & _ & ->)%normalize_ok_inv & ->)
    %load_data_uncached_result.
  unfold frame_ok. repeat split.
  - rewrite length_app, length_fmap. simpl.
    destruct rs; [done | simpl; lia].
  - apply last_snoc.
  - apply Forall_app. split.
    + apply Forall_fmap, Forall_forall. intros r _. apply master_row_has_frame.
    + repeat constructor. by eexists.
Qed.

Lemma load_data_keeps_cache_ok server url st :
  cache_ok st → cache_ok (load_data server url st).2.
Proof.
  intros Hok. unfold load_data, st_cache_data.
  destruct (cache st !! url) as [v|] eqn:Hc; [done|].
  pose proof (load_data_uncached_frame server url st) as [Hcache _].
  destruct (load_data_uncached server url st) as [[[df data]|e] st1] eqn:Hrun;
    simpl in *.
  - intros u df' data'. simpl. rewrite Hcache.
    destruct (decide (url = u)) as [->|Hne].
    + rewrite lookup_insert_eq. intros [= <- <-].
      by apply (loaded_frame_ok server u st df data st1).
    + rewrite lookup_insert_ne by done. apply Hok.
  - intros u df' data'. rewrite Hcache. apply Hok.
Qed.

(** Whatever URLs are loaded, in whatever order and whatever the network
    answers, every frame in the cache has at least two rows, ends with the
    orphan row and holds a frame in the [callRecords] cell of every row. *)
Theorem cache_holds_loaded_frames server urls :
  cache_ok (load_each server urls init).
Proof.
  assert (∀ st, cache_ok st → cache_ok (load_each server urls st)) as Hall.
  { induction urls as [|url urls IH]; intros st Hst; [done|].
    simpl. apply IH. by apply load_data_keeps_cache_ok. }
  apply Hall. intros url df data. unfold init. simpl.
  by rewrite lookup_empty.
Qed.

(** ** The script *)

Lemma load_data_ok_cached server url st v st1 :
  load_data server url st = (Ok v, st1) → cache st1 !! url = Some v.
Proof.
  unfold load_data, st_cache_data.
  destruct (cache st !! url) as [v0|] eqn:Hc.
  - by intros [= <- <-].
  - destruct (load_data_uncached server url st) as [[v0|e] st0]; [|done].
    intros [= <- <-]. simpl. apply lookup_insert_eq.
Qed.

Lemma build_hands_over l st xs :
  heap st !! l = Some xs →
  ∃ g opts,
    build_grid_options l st
    = (Ok g, set_heap (λ h, h ++ [xs ++ [orphans_row]]) st) ∧
    rowData g = length (heap st) ∧
    options_for xs = Some opts ∧
    opts = with_rows g (xs ++ [orphans_row]).
Proof.
  intros Hl.
  destruct (build_grid_options_pair l st xs 0%nat (holding xs) xs Hl eq_refl)
    as (g & g0 & Hrun & Hrun0 & Hrow & Hrow0 & Hsame).
  exists g, (with_rows g (xs ++ [orphans_row])).
  split; [exact Hrun|]. split; [exact Hrow|]. split; [|done].
  unfold options_for. rewrite Hrun0. unfold snapshot. rewrite Hrow0. simpl.
  f_equal. symmetry. by apply with_rows_unit.
Qed.

Lemma main_script_after_load server aggrid st df data st1 :
  load_data server DATA_URL st = (Ok (df, data), st1) →
  ∃ opts,
    options_for data = Some opts ∧
    rowData opts = data ++ [orphans_row] ∧
    main_script server aggrid st []
    = (Ok (),
       set_heap (λ h, h ++ [data ++ [orphans_row]])
         (set_heap (λ h, h ++ [data]) st1),
       page aggrid opts data).
Proof.
  intros Hload.
  set (st2 := set_heap (λ h, h ++ [data]) st1).
  destruct (build_hands_over (length (heap st1)) st2 data)
    as (g & opts & Hrun & Hrow & Hopts & Hg); [apply heap_lookup_new|].
  set (st3 := set_heap (λ h, h ++ [data ++ [orphans_row]]) st2) in *.
  assert (snapshot st3 g = Some opts) as Hsnap.
  { unfold snapshot. rewrite Hrow. subst st3. cbn [heap set_heap].
    by rewrite heap_lookup_new, Hg. }
  assert (heap st3 !! (length (heap st1) : loc) = Some data) as Hdata.
  { subst st3 st2. cbn [heap set_heap].
    apply heap_lookup_old, heap_lookup_new. }
  exists opts. split; [exact Hopts|]. split; [by rewrite Hg|].
  unfold main_script, emit, run, read_options, alloc, deref.
  unfold mbind, Script_bind. simpl. rewrite Hload. simpl.
  fold st2. rewrite Hrun. fold st3. rewrite Hsnap, Hdata.
  cbn beta iota. rewrite Hsnap. reflexivity.
Qed.

(** When the load raises, the script has shown the title and logged that
    it is loading, and nothing else: no success line, no tabs, no grid;
    the exception of the load is the one of the script, and no list object
    has been made. *)
Theorem script_stops_at_failed_load server aggrid st e st1 :
  load_data server DATA_URL st = (Raise e, st1) →
  main_script server aggrid st []
  = (Raise e, st1,
     [Title "Master-Detail Grid Example"; LogInfo "Loading data..."]).
Proof.
  intros Hload. unfold main_script, emit, run.
  unfold mbind, Script_bind. simpl. by rewrite Hload.
Qed.

Lemma script_stops_at_failed_load_witness :
  main_script srv_down no_selection init []
  = (Raise ConnectionError, mkState [(Requests, DATA_URL)] ∅ [],
     [Title "Master-Detail Grid Example"; LogInfo "Loading data..."]).
Proof.
  apply (script_stops_at_failed_load srv_down no_selection init
           ConnectionError (mkState [(Requests, DATA_URL)] ∅ [])).
  reflexivity.
Defined.

(** When the load returns, the script runs to its end and shows, in this
    order: the title, the four log lines, the four tabs, the grid in the
    first tab, the raw rows in the second, the options in the third and
    the selection below the tabs; the fourth tab stays empty.  The grid
    gets the raw rows followed by one orphan row, while the second tab
    shows the raw rows without it.  The frame of the dataset is not used.
    The script sends no request of its own and leaves the cache as the
    load left it. *)
Theorem script_shows_page server aggrid st df data st1 :
  load_data server DATA_URL st = (Ok (df, data), st1) →
  ∃ opts st',
    main_script server aggrid st [] = (Ok (), st', page aggrid opts data) ∧
    options_for data = Some opts ∧
    rowData opts = data ++ [orphans_row] ∧
    sent st' = sent st1 ∧
    cache st' = cache st1 ∧
    heap st' = heap st1 ++ [data; data ++ [orphans_row]].
Proof.
  intros Hload.
  destruct (main_script_after_load server aggrid st df data st1 Hload)
    as (opts & Hopts & Hrows & Hrun).
  exists opts. eexists. split; [exact Hrun|].
  split; [exact Hopts|]. split; [exact Hrows|].
  repeat split. simpl. by rewrite <- app_assoc.
Qed.

Lemma script_shows_page_witness :
  ∃ opts st',
    main_script (serve (Records [mila])) no_selection init []
    = (Ok (), st', page no_selection opts [mila]) ∧
    rowData opts = [mila; orphans_row].
Proof.
  destruct (script_shows_page (serve (Records [mila])) no_selection init
              [master_row mila; orphaned_row] [mila]
              (load_data (serve (Records [mila])) DATA_URL init).2 eq_refl)
    as (opts & st' & Hrun & _ & Hrows & _).
  exists opts, st'. split; [exact Hrun | exact Hrows].
Defined.

(** After a run of the script that got through, every rerun shows the
    same page, sends no request and leaves the cache alone, whatever the
    network would answer by then and as long as the grid hands back the
    same selection. *)
Theorem script_rerun_shows_same_page server aggrid st st1 evs server' :
  main_script server aggrid st [] = (Ok (), st1, evs) →
  ∃ st2,
    main_script server' aggrid st1 [] = (Ok (), st2, evs) ∧
    sent st2 = sent st1 ∧
    cache st2 = cache st1.
Proof.
  intros Hrun.
  destruct (load_data server DATA_URL st) as [[[df data]|e] st0] eqn:Hload.
  - destruct (main_script_after_load server aggrid st df data st0 Hload)
      as (opts & Hopts & _ & Hrun').
    rewrite Hrun' in Hrun. injection Hrun as <- <-.
    set (st1 := set_heap (λ h, h ++ [data ++ [orphans_row]])
                  (set_heap (λ h, h ++ [data]) st0)).
    assert (load_data server' DATA_URL st1 = (Ok (df, data), st1)) as Hhit.
    { apply load_data_hit. subst st1. cbn [cache set_heap].
      by apply (load_data_ok_cached server DATA_URL st). }
    destruct (main_script_after_load server' aggrid st1 df data st1 Hhit)
      as (opts2 & Hopts2 & _ & Hrun2).
    eexists. rewrite Hrun2.
    assert (opts2 = opts) as -> by congruence. done.
  - unfold main_script, emit, run in Hrun.
    unfold mbind, Script_bind in Hrun. simpl in Hrun.
    rewrite Hload in Hrun. discriminate.
Qed.

Lemma script_rerun_shows_same_page_witness :
  ∃ st1 evs st2,
    main_script (serve (Records [mila])) no_selection init []
    = (Ok (), st1, evs) ∧
    main_script srv_down no_selection st1 [] = (Ok (), st2, evs).
Proof.
  destruct (main_script (serve (Records [mila])) no_selection init [])
    as [[[[]|e] st1] evs] eqn:Hrun; [|discriminate Hrun].
  destruct (script_rerun_shows_same_page (serve (Records [mila]))
              no_selection init st1 evs srv_down Hrun) as (st2 & Hrun2 & _).
  exists st1, evs, st2. split; [reflexivity | exact Hrun2].
Defined.

(** ** Formatters and columns *)

Lemma toLocaleString_small_checked sep :
  forallb (λ n, bool_decide
                  (toLocaleString {| group_separator := sep |}
                     (Z.of_nat n - 999)
                   = pretty (Z.of_nat n - 999)))
          (seq 0 1999) = true.
Proof. vm_compute. reflexivity. Qed.

Lemma toLocaleString_small lc x :
  -1000 < x < 1000 → toLocaleString lc x = pretty x.
Proof.
  intros Hx. destruct lc as [sep].
  pose proof (toLocaleString_small_checked sep) as Hall.
  rewrite forallb_forall in Hall.
  specialize (Hall (Z.to_nat (x + 999))).
  rewrite bool_decide_eq_true in Hall.
  replace (Z.of_nat (Z.to_nat (x + 999)) - 999) with x in Hall by lia.
  apply Hall. apply in_seq. lia.
Qed.

(** An integer cell of fewer than four digits, negative or not, is shown
    as its plain decimal digits followed by the unit, whatever the group
    separator of the locale: no separator appears below 1000.  This is for
    the locales of the model, which write Western digits and the ASCII
    minus sign and differ in their group separator only, and for integer
    cells; fractional cells are not modelled. *)
Theorem small_values_unseparated l st g st' (lc : locale) x :
  build_grid_options l st = (Ok g, st') →
  -1000 < x < 1000 →
  format_minutes g lc x = Some (pretty x +:+ "m") ∧
  format_duration g lc x = Some (pretty x +:+ "s").
Proof.
  unfold build_grid_options, deref, alloc, mbind, M_bind, mret, M_ret.
  destruct (heap st !! l) as [xs|]; [|done]. simpl.
  intros [= <- _] Hx.
  unfold format_minutes, format_duration. simpl.
  change (eval_formatter lc "x.toLocaleString() + 'm'" x)
    with (Some (toLocaleString lc x +:+ "m")).
  change (eval_formatter lc "x.toLocaleString() + 's'" x)
    with (Some (toLocaleString lc x +:+ "s")).
  by rewrite (toLocaleString_small lc x Hx).
Qed.

Lemma small_values_unseparated_witness :
  ∃ g st',
    build_grid_options 0%nat (holding sample_records) = (Ok g, st') ∧
    format_minutes g de_DE 0 = Some "0m" ∧
    format_duration g en_US (-72) = Some "-72s".
Proof.
  destruct (build_grid_options 0%nat (holding sample_records))
    as [[g|e] st'] eqn:Hrun; [|discriminate Hrun].
  exists g, st'. split; [reflexivity|]. split.
  - apply (small_values_unseparated 0%nat (holding sample_records) g st'
             de_DE 0 Hrun). lia.
  - apply (small_values_unseparated 0%nat (holding sample_records) g st'
             en_US (-72) Hrun). lia.
Defined.

(** ** Runs of the body over many loads *)

Lemma executions_snoc_other c u url st :
  u ≠ url →
  executions url (set_sent (λ l, l ++ [(c, u)]) st) = executions url st.
Proof.
  intros Hne. unfold executions. simpl. rewrite filter_app, length_app.
  rewrite filter_cons_False; [simpl; lia|]. by intros [= _ ->].
Qed.

Lemma executions_after_other_load server u url st :
  u ≠ url → executions url (load_data server u st).2 = executions url st.
Proof.
  intros Hne. unfold load_data, st_cache_data.
  destruct (cache st !! u) as [v|]; [done|].
  assert (executions url (load_data_uncached server u st).2
          = executions url st) as Hrun.
  { rewrite load_data_uncached_unfold. cbv zeta.
    destruct (server (length (sent st)) u) as [|s0 [|data]];
      [by apply executions_snoc_other..|].
    destruct (server (S (length (sent st))) u) as [|s [|rs]];
      [|destruct (bool_decide _)
       |destruct (bool_decide _);
        [destruct (normalize_callRecords rs)|]];
      cbn [snd]; by rewrite !executions_snoc_other. }
  destruct (load_data_uncached server u st) as [[v|e] st1]; exact Hrun.
Qed.

Lemma executions_after_load server u url st :
  (executions url (load_data server u st).2
   ≤ executions url st + (if decide (u = url) then 1 else 0))%nat.
Proof.
  destruct (decide (u = url)) as [->|Hne].
  - pose proof (executions_after_same_load server url st). lia.
  - rewrite (executions_after_other_load server u url st Hne). lia.
Qed.

(** Over any sequence of loads from the start of the process, the body of
    [load_data] runs at most once per call, and only for the URL of that
    call: the runs for a URL never outnumber the calls for it. *)
Theorem executions_bounded_by_calls server urls url :
  (executions url (load_each server urls init)
   ≤ length (filter (λ u, u = url) urls))%nat.
Proof.
  assert (∀ st, executions url (load_each server urls st)
                ≤ executions url st + length (filter (λ u, u = url) urls))%nat
    as Hall.
  { induction urls as [|u urls IH]; intros st; simpl; [lia|].
    etrans; [apply IH|].
    pose proof (executions_after_load server u url st) as Hstep.
    destruct (decide (u = url)) as [->|Hne].
    - rewrite filter_cons_True by done. simpl. lia.
    - rewrite filter_cons_False by done. lia. }
  apply (Hall init).
Qed.
